(** * crypt_compat: the SHA-512 crypt shim of build-scripts/crypt_compat.py

    The module re-exposes [crypt(word, salt)] on Python 3.13+, where the
    standard [crypt] module is gone, by parsing the salt descriptor and
    calling passlib's [sha512_crypt].  This development embeds that function
    and the Python built-ins it relies on ([bytes.decode('utf-8')],
    [str.startswith], [str.split], slicing, indexing and [int]), and proves
    the properties of its observable contract.

    passlib's [sha512_crypt] is a parameter: a function from the round
    count, the salt and the password to a hash or an error of its own.  On
    older interpreters the module re-exports the standard [crypt] and none of
    the code below runs. *)

From Stdlib Require Import ZArith NArith List Bool Lia ZifyBool.
From Stdlib Require Import Strings.String Strings.Ascii Strings.Byte.
From Stdlib Require Import DecimalString.
From ExtLib Require Import Structures.Monad Structures.MonadExc.
From ExtLib Require Import Data.Monads.EitherMonad.
Import ListNotations.
Import MonadNotation.
Local Open Scope monad_scope.

(** ** Python values *)

(** A Python [str] is a sequence of Unicode code points, a [bytes] object a
    sequence of octets. *)
Definition codepoint := N.
Definition str := list codepoint.
Definition bytes := list byte.

(** An ASCII literal of the source, as a [str]. *)
Fixpoint lit (s : string) : str :=
  match s with
  | EmptyString => []
  | String a s' => N_of_ascii a :: lit s'
  end.

(** The first argument of [crypt]: [str] or [bytes]. *)
Inductive pyword :=
| Text (s : str)
| Bytes (b : bytes).

(** The exceptions that can leave [crypt].  [E] is the type of the errors the
    passlib primitive raises by itself. *)
Inductive exn (E : Type) :=
| UnicodeDecodeError
| ValueError (msg : str)
| IndexError
| PasslibError (e : E).
Arguments UnicodeDecodeError {E}.
Arguments ValueError {E} msg.
Arguments IndexError {E}.
Arguments PasslibError {E} e.

(** A computation that returns an [A] or raises. *)
Abbreviation result E := (sum (exn E)).

(** [s.startswith(prefix)] *)
Fixpoint startswith (s prefix : str) {struct prefix} : bool :=
  match prefix, s with
  | [], _ => true
  | p :: prefix', c :: s' => (c =? p)%N && startswith s' prefix'
  | _ :: _, [] => false
  end.

(** [s.split(sep)] for a separator of one character: one more part than
    there are separators, empty parts kept. *)
Fixpoint split (s : str) (sep : codepoint) : list str :=
  match s with
  | [] => [[]]
  | c :: s' =>
      if (c =? sep)%N then [] :: split s' sep
      else match split s' sep with
           | part :: parts => (c :: part) :: parts
           | [] => [[c]]
           end
  end.

(** [c in s] for one character. *)
Definition contains (s : str) (c : codepoint) : bool := existsb (N.eqb c) s.

(** [s[:n]] *)
Definition slice_to {A} (n : nat) (s : list A) : list A := firstn n s.

(** [l[i]], which raises IndexError out of range. *)
Definition getitem {E A} (l : list A) (i : nat) : result E A :=
  match nth_error l i with
  | Some x => ret x
  | None => raise IndexError
  end.

(** The code points of the separators the source names. *)
Definition dollar : codepoint := 36%N.
Definition equals_sign : codepoint := 61%N.

(** [a >= b] on tuples of integers: the first position where they differ
    decides, and of two tuples that agree as far as the shorter goes, the
    longer is the greater. *)
Fixpoint tuple_ge (a b : list N) {struct b} : bool :=
  match b with
  | [] => true
  | y :: b' =>
      match a with
      | [] => false
      | x :: a' => if (x =? y)%N then tuple_ge a' b' else (y <? x)%N
      end
  end.

(** ** [bytes.decode('utf-8')] and [str.encode('utf-8')]

    The strict UTF-8 codec of the interpreter, on octets as numbers.  The
    decoder follows the case analysis of CPython's [utf8_decode]: it refuses
    stray continuation bytes, overlong forms, surrogates and everything
    above U+10FFFF. *)
Section Utf8.
Local Open Scope N_scope.

Definition is_continuation_byte (ch : N) : bool :=
  (0x80 <=? ch) && (ch <? 0xC0).

Fixpoint utf8_decode_octets (s : list N) : option str :=
  match s with
  | [] => Some []
  | ch :: s1 =>
      if ch <? 0x80 then
        option_map (cons ch) (utf8_decode_octets s1)
      else if ch <? 0xE0 then
        (* \xC2\x80-\xDF\xBF: U+0080-U+07FF *)
        if ch <? 0xC2 then None
        else
          match s1 with
          | ch2 :: s2 =>
              if is_continuation_byte ch2 then
                option_map (cons ((ch - 0xC0) * 64 + (ch2 - 0x80)))
                           (utf8_decode_octets s2)
              else None
          | _ => None
          end
      else if ch <? 0xF0 then
        (* \xE0\xA0\x80-\xEF\xBF\xBF: U+0800-U+FFFF, surrogates excluded *)
        match s1 with
        | ch2 :: ch3 :: s3 =>
            (* ch2 < 0xA0 ? ch == 0xE0 : ch == 0xED *)
            if negb (is_continuation_byte ch2)
               || ((ch2 <? 0xA0) && (ch =? 0xE0))
               || (negb (ch2 <? 0xA0) && (ch =? 0xED))
            then None
            else if negb (is_continuation_byte ch3) then None
            else
              option_map
                (cons ((ch - 0xE0) * 4096 + (ch2 - 0x80) * 64 + (ch3 - 0x80)))
                (utf8_decode_octets s3)
        | _ => None
        end
      else if ch <? 0xF5 then
        (* \xF0\x90\x80\x80-\xF4\x8F\xBF\xBF: U+10000-U+10FFFF *)
        match s1 with
        | ch2 :: ch3 :: ch4 :: s4 =>
            (* ch2 < 0x90 ? ch == 0xF0 : ch == 0xF4 *)
            if negb (is_continuation_byte ch2)
               || ((ch2 <? 0x90) && (ch =? 0xF0))
               || (negb (ch2 <? 0x90) && (ch =? 0xF4))
            then None
            else if negb (is_continuation_byte ch3) then None
            else if negb (is_continuation_byte ch4) then None
            else
              option_map
                (cons ((ch - 0xF0) * 262144 + (ch2 - 0x80) * 4096
                       + (ch3 - 0x80) * 64 + (ch4 - 0x80)))
                (utf8_decode_octets s4)
        | _ => None
        end
      else None
  end.

Definition utf8_decode (b : bytes) : option str :=
  utf8_decode_octets (map Byte.to_N b).

(** The octets of one code point; a surrogate or a number above U+10FFFF
    has none. *)
Definition utf8_encode_codepoint (c : codepoint) : option (list N) :=
  if c <? 0x80 then Some [c]
  else if c <? 0x800 then Some [0xC0 + c / 64; 0x80 + c mod 64]
  else if c <? 0x10000 then
    if (0xD800 <=? c) && (c <=? 0xDFFF) then None
    else Some [0xE0 + c / 4096; 0x80 + (c / 64) mod 64; 0x80 + c mod 64]
  else if c <? 0x110000 then
    Some [0xF0 + c / 262144; 0x80 + (c / 4096) mod 64;
          0x80 + (c / 64) mod 64; 0x80 + c mod 64]
  else None.

Fixpoint utf8_encode_octets (t : str) : option (list N) :=
  match t with
  | [] => Some []
  | c :: t' =>
      match utf8_encode_codepoint c, utf8_encode_octets t' with
      | Some o, Some os => Some (o ++ os)
      | _, _ => None
      end
  end.

Definition octet (n : N) : byte :=
  match Byte.of_N n with
  | Some b => b
  | None => x00
  end.

Definition utf8_encode (t : str) : option bytes :=
  option_map (map octet) (utf8_encode_octets t).
End Utf8.

(** ** [int(s)] for a [str], base 10

    CPython first maps the string to ASCII
    ([_PyUnicode_TransformDecimalAndSpaceToASCII]) and then reads it with
    [PyLong_FromString]: blanks, an optional sign, decimal digits with single
    underscores between them, blanks.  Anything else is a ValueError. *)
Section PyInt.
Local Open Scope N_scope.

(** The decimal digit value of a code point in the Unicode database, which
    the interpreter consults only from U+007F on. *)
Variable Py_UNICODE_TODECIMAL : codepoint -> option N.
(** [sys.get_int_max_str_digits()]; 0 switches the limit off. *)
Variable max_str_digits : N.

(** [Py_ISSPACE] *)
Definition Py_ISSPACE (c : codepoint) : bool :=
  ((9 <=? c) && (c <=? 13)) || (c =? 32).

(** [Py_UNICODE_ISSPACE], from U+007F on. *)
Definition Py_UNICODE_ISSPACE (c : codepoint) : bool :=
  (c =? 0x85) || (c =? 0xA0) || (c =? 0x1680)
  || ((0x2000 <=? c) && (c <=? 0x200A))
  || (c =? 0x2028) || (c =? 0x2029) || (c =? 0x202F) || (c =? 0x205F)
  || (c =? 0x3000).

Definition is_digit (c : codepoint) : bool := (48 <=? c) && (c <=? 57).

(** The ASCII characters an integer literal is made of: blanks, signs,
    the underscore and the digits. *)
Definition literal_char (c : codepoint) : bool :=
  Py_ISSPACE c || (c =? 43) || (c =? 45) || (c =? 95) || is_digit c.

(** The transformed string stops after the first character that is
    neither ASCII, a blank nor a decimal digit, which becomes '?'. *)
Fixpoint transform_decimal_and_space_to_ascii (s : str) : str :=
  match s with
  | [] => []
  | ch :: s' =>
      if ch <? 127 then ch :: transform_decimal_and_space_to_ascii s'
      else if Py_UNICODE_ISSPACE ch then
        32 :: transform_decimal_and_space_to_ascii s'
      else
        match Py_UNICODE_TODECIMAL ch with
        | Some d => (48 + d) :: transform_decimal_and_space_to_ascii s'
        | None => [63]
        end
  end.

Fixpoint skip_spaces (a : str) : str :=
  match a with
  | c :: a' => if Py_ISSPACE c then skip_spaces a' else a
  | [] => []
  end.

(** The digit loop: the value read, the number of digits and what is left;
    [prev_underscore] tells whether the previous character was '_'. *)
Fixpoint scan_digits (prev_underscore : bool) (value digits : N) (a : str)
  : option (N * N * str) :=
  match a with
  | c :: a' =>
      if c =? 95 then
        if prev_underscore then None
        else scan_digits true value digits a'
      else if is_digit c then
        scan_digits false (10 * value + (c - 48)) (digits + 1) a'
      else if prev_underscore then None
      else Some (value, digits, a)
  | [] => if prev_underscore then None else Some (value, digits, [])
  end.

(** An optional sign, and what follows it. *)
Definition read_sign (a : str) : Z * str :=
  match a with
  | c :: a' =>
      if c =? 43 then (1%Z, a')
      else if c =? 45 then ((-1)%Z, a')
      else (1%Z, a)
  | [] => (1%Z, a)
  end.

(** The digits up to the end, trailing blanks allowed: no leading
    underscore, at least one digit, no more digits than the limit. *)
Definition read_digits (sign : Z) (a : str) : option Z :=
  match a with
  | c :: _ =>
      if c =? 95 then None
      else
        match scan_digits false 0 0 a with
        | Some (value, digits, rest) =>
            if digits =? 0 then None
            else if (640 <? digits) && (0 <? max_str_digits)
                    && (max_str_digits <? digits) then None
            else
              match skip_spaces rest with
              | [] => Some (sign * Z.of_N value)%Z
              | _ :: _ => None
              end
        | None => None
        end
  | [] => None
  end.

Definition PyLong_FromString (a : str) : option Z :=
  let '(sign, a) := read_sign (skip_spaces a) in
  read_digits sign a.

Definition int {E} (s : str) : result E Z :=
  match PyLong_FromString (transform_decimal_and_space_to_ascii s) with
  | Some n => ret n
  | None => raise (ValueError (lit "invalid literal for int() with base 10"))
  end.
End PyInt.

(** ** Instances used to run the shim on concrete inputs

    A stand-in for passlib with the interface of the real one: it refuses
    round counts outside passlib's range and otherwise returns a crypt string
    whose digest field is a copy of the password.  It is not SHA-512; the
    theorems below hold for every primitive. *)
Definition toy_sha512_crypt (rounds : Z) (salt word : str) : unit + str :=
  if ((rounds <? 1000) || (999999999 <? rounds))%Z then inl tt
  else inr (lit "$6$" ++ salt ++ lit "$" ++ word).

(** A primitive that keeps no secret: it raises with the round count, the
    salt and the password it was called with. *)
Definition recording_sha512_crypt (rounds : Z) (salt word : str)
  : (Z * str * str) + str :=
  inl (rounds, salt, word).

(** Modelled from the spec: the decimal numeral [<N>] of a round count in a
    hash result; the printing of integers belongs to passlib, which is not
    part of the repository. *)
Definition decimal (n : Z) : str := lit (NilZero.string_of_int (Z.to_int n)).

(** Modelled from the spec: the hash result, which passlib builds and the
    repository only passes on.  It is [$6$rounds=<N>$<salt>$<digest>], or
    [$6$<salt>$<digest>] when the rounds equal the scheme default. *)
Definition crypt_string (rounds : Z) (salt digest : str) : str :=
  if (rounds =? 5000)%Z then lit "$6$" ++ salt ++ lit "$" ++ digest
  else lit "$6$rounds=" ++ decimal rounds ++ lit "$" ++ salt ++ lit "$"
           ++ digest.

(** Modelled from the spec: the SHA-512 crypt primitive
    [hash_sha512_crypt(password_text, salt_text, rounds_int)] of passlib,
    which is not part of the repository.  It returns the hash result for the
    round count and the salt it is given; [digest] is the digest field, a
    function of the three arguments. *)
Definition spec_sha512_crypt {E : Type} (digest : Z -> str -> str -> str)
           (rounds : Z) (salt word : str) : E + str :=
  inr (crypt_string rounds salt (digest rounds salt word)).

(** A Unicode table without digits beyond ASCII, and the interpreter's
    default limit on the digits of an integer literal. *)
Definition no_unicode_digits (c : codepoint) : option N := None.
Definition default_max_str_digits : N := 4300.

(** Arithmetic with comparisons, quotients and remainders by constants. *)
Ltac utf8_arith := zify; Z.to_euclidean_division_equations; lia.

(** Settles the test at the head of the goal by arithmetic and takes the
    branch. *)
Ltac utf8_test :=
  match goal with
  | |- (if ?t then _ else _) = _ =>
      let H := fresh in
      first [ assert (H : t = true) by utf8_arith
            | assert (H : t = false) by utf8_arith ];
      rewrite H; clear H; cbv beta iota
  end.

(** ** The shim *)
Section CryptCompat.
(** The errors of passlib, and
    [sha512_crypt.using(rounds=rounds, salt=salt).hash(word)]. *)
Variable E : Type.
Variable sha512_crypt : Z -> str -> str -> E + str.
Variable Py_UNICODE_TODECIMAL : codepoint -> option N.
Variable max_str_digits : N.

Definition sha512_crypt_using_hash (rounds : Z) (salt word : str)
  : result E str :=
  match sha512_crypt rounds salt word with
  | inl e => raise (PasslibError e)
  | inr h => ret h
  end.

(** [word.decode('utf-8')] when [word] is a [bytes] object. *)
Definition decode_word (word : pyword) : result E str :=
  match word with
  | Bytes b =>
      match utf8_decode b with
      | Some s => ret s
      | None => raise UnicodeDecodeError
      end
  | Text s => ret s
  end.

Definition unsupported_scheme_message (salt : str) : str :=
  lit "Only SHA-512 crypt ($6$) is supported, got: " ++ slice_to 3 salt.

Definition invalid_salt_message (salt : str) : str :=
  lit "Invalid salt format: " ++ salt.

Definition crypt (word : pyword) (salt : str) : result E str :=
  (* Convert bytes to string if needed *)
  word <- decode_word word ;;
  (* Validate salt format *)
  if negb (startswith salt (lit "$6$")) then
    raise (ValueError (unsupported_scheme_message salt))
  else
    (* Extract salt and optional rounds *)
    let parts := split salt dollar in
    if (List.length parts <? 3)%nat then
      raise (ValueError (invalid_salt_message salt))
    else
      parts_2 <- getitem parts 2 ;;
      (* Check if rounds are specified *)
      '(rounds, salt_value) <-
        (if startswith parts_2 (lit "rounds=") then
           (* Extract rounds value *)
           rounds_str <- getitem (split parts_2 equals_sign) 1 ;;
           rounds <- catch (int Py_UNICODE_TODECIMAL max_str_digits rounds_str)
                           (fun e => match e with
                                     | ValueError _ => ret 5000%Z
                                     | _ => raise e
                                     end) ;;
           salt_value <- (if (3 <? List.length parts)%nat then getitem parts 3
                          else ret []) ;;
           ret (rounds, salt_value)
         else
           ret (5000%Z, parts_2)) ;;
      (* Use passlib to generate the hash *)
      sha512_crypt_using_hash rounds salt_value word.

(** *** The module

    Importing the module either raises ImportError or binds the name
    [crypt]. *)
Inductive import_result :=
| ImportError (msg : str)
| Exports (crypt : pyword -> str -> result E str).

(** The body of the module.  [version_info] holds the integers at the head
    of [sys.version_info] (major, minor, micro); [passlib_importable] tells
    whether [from passlib.hash import sha512_crypt] succeeds, and
    [stdlib_crypt] is what [from crypt import *] gives. *)
Definition import_crypt_compat (version_info : list N)
           (passlib_importable : bool) (stdlib_crypt : import_result)
  : import_result :=
  if tuple_ge version_info [3; 13]%N then
    (* Python 3.13+ - use passlib for crypt functionality *)
    if passlib_importable then Exports crypt
    else
      ImportError
        (lit "passlib is required for crypt module compatibility in Python 3.13+. "
         ++ lit "Install it with: pip install passlib")
  else
    (* Python < 3.13 - use the standard library crypt module *)
    stdlib_crypt.

(** *** Vocabulary of the specification *)

(** The [$]-separated segments of a salt descriptor, the third one, and
    the fourth one if present, else the empty string. *)
Definition segments (salt : str) : list str := split salt dollar.

Definition third_segment (salt : str) : str := nth 2 (segments salt) [].

Definition fourth_segment_or_empty (salt : str) : str :=
  match nth_error (segments salt) 3 with
  | Some s => s
  | None => []
  end.

(** The rounds value of a third segment: what stands between its first
    and its second [=]. *)
Definition rounds_value (segment : str) : str :=
  nth 1 (split segment equals_sign) [].

(** The round count a rounds value stands for: the integer it reads as,
    or the default when it does not read as one. *)
Definition rounds_or_default (rounds_str : str) : Z :=
  match int (E:=E) Py_UNICODE_TODECIMAL max_str_digits rounds_str with
  | inr n => n
  | inl _ => 5000%Z
  end.

(** The round count and the salt material a descriptor of scheme 6 resolves
    to. *)
Definition descriptor_rounds (salt : str) : Z :=
  if startswith (third_segment salt) (lit "rounds=")
  then rounds_or_default (rounds_value (third_segment salt))
  else 5000%Z.

Definition descriptor_salt (salt : str) : str :=
  if startswith (third_segment salt) (lit "rounds=")
  then fourth_segment_or_empty salt
  else third_segment salt.

(** The reference hash of the specification,
    [hash_sha512_crypt(password_text, salt_text, rounds_int)], on the text
    of the password. *)
Definition reference_hash (password : pyword) (salt_text : str)
           (rounds : Z) : result E str :=
  password_text <- decode_word password ;;
  sha512_crypt_using_hash rounds salt_text password_text.

(** The outcome is the "Invalid salt format" ValueError of the shim. *)
Definition raises_invalid_salt_format (r : result E str) : bool :=
  match r with
  | inl (ValueError msg) => startswith msg (lit "Invalid salt format: ")
  | _ => false
  end.

(** ** Strings *)

Lemma startswith_app (p s : str) : startswith (p ++ s) p = true.
Proof.
  induction p as [|c p IH]; simpl; [reflexivity|].
  now rewrite N.eqb_refl, IH.
Qed.

Lemma startswith_inv (s p : str) :
  startswith s p = true -> exists rest, s = p ++ rest.
Proof.
  revert s; induction p as [|c p IH]; intros s H; simpl in *.
  - now exists s.
  - destruct s as [|d s]; [discriminate|].
    apply andb_true_iff in H as [Hc Hs]. apply N.eqb_eq in Hc; subst d.
    destruct (IH _ Hs) as [rest ->]. now exists rest.
Qed.

Lemma split_not_nil (s : str) (sep : codepoint) : split s sep <> [].
Proof.
  destruct s as [|c s]; simpl; [discriminate|].
  destruct (c =? sep)%N; [discriminate|].
  destruct (split s sep); discriminate.
Qed.

(** A string without the separator is its own single part. *)
Lemma split_no_sep (s : str) (sep : codepoint) :
  ~ In sep s -> split s sep = [s].
Proof.
  induction s as [|c s IH]; intros H; simpl; [reflexivity|].
  destruct (N.eqb_spec c sep) as [->|_]; [exfalso; apply H; now left|].
  rewrite IH; [reflexivity|]. intros Hin; apply H; now right.
Qed.

(** The part before the first separator is split off. *)
Lemma split_app_sep (p s : str) (sep : codepoint) :
  ~ In sep p -> split (p ++ sep :: s) sep = p :: split s sep.
Proof.
  induction p as [|c p IH]; intros H; simpl.
  - now rewrite N.eqb_refl.
  - destruct (N.eqb_spec c sep) as [->|_]; [exfalso; apply H; now left|].
    rewrite IH; [reflexivity|]. intros Hin; apply H; now right.
Qed.

(** A descriptor that starts with [$6$] has the segments "", "6" and
    those of what follows the marker. *)
Lemma segments_scheme6 (rest : str) :
  segments (lit "$6$" ++ rest) = [] :: lit "6" :: split rest dollar.
Proof. reflexivity. Qed.

(** ** UTF-8: decoding what was encoded *)

(** The decoder on a well-formed sequence of one, two, three and four
    octets. *)
Lemma utf8_decode_one (ch : N) (s : list N) :
  (ch < 0x80)%N ->
  utf8_decode_octets ([ch] ++ s) = option_map (cons ch) (utf8_decode_octets s).
Proof.
  intros. cbn [app utf8_decode_octets]. now utf8_test.
Qed.

Lemma utf8_decode_two (ch ch2 : N) (s : list N) :
  (0xC2 <= ch < 0xE0)%N -> (0x80 <= ch2 < 0xC0)%N ->
  utf8_decode_octets ([ch; ch2] ++ s)
  = option_map (cons ((ch - 0xC0) * 64 + (ch2 - 0x80))%N)
               (utf8_decode_octets s).
Proof.
  intros. cbn [app utf8_decode_octets]. unfold is_continuation_byte.
  now repeat utf8_test.
Qed.

Lemma utf8_decode_three (ch ch2 ch3 : N) (s : list N) :
  (0xE0 <= ch < 0xF0)%N -> (0x80 <= ch2 < 0xC0)%N ->
  (0x80 <= ch3 < 0xC0)%N ->
  (ch = 0xE0 -> 0xA0 <= ch2)%N -> (ch = 0xED -> ch2 < 0xA0)%N ->
  utf8_decode_octets ([ch; ch2; ch3] ++ s)
  = option_map
      (cons ((ch - 0xE0) * 4096 + (ch2 - 0x80) * 64 + (ch3 - 0x80))%N)
      (utf8_decode_octets s).
Proof.
  intros. cbn [app utf8_decode_octets]. unfold is_continuation_byte.
  now repeat utf8_test.
Qed.

Lemma utf8_decode_four (ch ch2 ch3 ch4 : N) (s : list N) :
  (0xF0 <= ch < 0xF5)%N -> (0x80 <= ch2 < 0xC0)%N ->
  (0x80 <= ch3 < 0xC0)%N -> (0x80 <= ch4 < 0xC0)%N ->
  (ch = 0xF0 -> 0x90 <= ch2)%N -> (ch = 0xF4 -> ch2 < 0x90)%N ->
  utf8_decode_octets ([ch; ch2; ch3; ch4] ++ s)
  = option_map
      (cons ((ch - 0xF0) * 262144 + (ch2 - 0x80) * 4096
             + (ch3 - 0x80) * 64 + (ch4 - 0x80))%N)
      (utf8_decode_octets s).
Proof.
  intros. cbn [app utf8_decode_octets]. unfold is_continuation_byte.
  now repeat utf8_test.
Qed.

Lemma utf8_decode_encode_codepoint (c : codepoint) (o rest : list N) :
  utf8_encode_codepoint c = Some o ->
  utf8_decode_octets (o ++ rest)
  = option_map (cons c) (utf8_decode_octets rest).
Proof.
  unfold utf8_encode_codepoint. intros Ho.
  destruct (N.ltb_spec c 0x80).
  { assert (o = [c]) as -> by congruence. now apply utf8_decode_one. }
  destruct (N.ltb_spec c 0x800).
  { assert (o = [0xC0 + c / 64; 0x80 + c mod 64]%N) as -> by congruence.
    rewrite utf8_decode_two by utf8_arith.
    f_equal. f_equal. utf8_arith. }
  destruct (N.ltb_spec c 0x10000).
  { destruct ((0xD800 <=? c) && (c <=? 0xDFFF))%N eqn:Hs; [discriminate|].
    assert (o = [0xE0 + c / 4096; 0x80 + (c / 64) mod 64; 0x80 + c mod 64]%N)
      as -> by congruence.
    rewrite utf8_decode_three by utf8_arith.
    f_equal. f_equal. utf8_arith. }
  destruct (N.ltb_spec c 0x110000); [|discriminate].
  assert (o = [0xF0 + c / 262144; 0x80 + (c / 4096) mod 64;
               0x80 + (c / 64) mod 64; 0x80 + c mod 64]%N)
    as -> by congruence.
  rewrite utf8_decode_four by utf8_arith.
  f_equal. f_equal. utf8_arith.
Qed.

Lemma utf8_encode_codepoint_octets (c : codepoint) (o : list N) :
  utf8_encode_codepoint c = Some o -> Forall (fun n => (n < 256)%N) o.
Proof.
  unfold utf8_encode_codepoint. intros Ho.
  destruct (N.ltb_spec c 0x80).
  { assert (o = [c]) as -> by congruence. repeat constructor. lia. }
  destruct (N.ltb_spec c 0x800).
  { assert (o = [0xC0 + c / 64; 0x80 + c mod 64]%N) as -> by congruence.
    repeat constructor; utf8_arith. }
  destruct (N.ltb_spec c 0x10000).
  { destruct ((0xD800 <=? c) && (c <=? 0xDFFF))%N; [discriminate|].
    assert (o = [0xE0 + c / 4096; 0x80 + (c / 64) mod 64; 0x80 + c mod 64]%N)
      as -> by congruence.
    repeat constructor; utf8_arith. }
  destruct (N.ltb_spec c 0x110000); [|discriminate].
  assert (o = [0xF0 + c / 262144; 0x80 + (c / 4096) mod 64;
               0x80 + (c / 64) mod 64; 0x80 + c mod 64]%N)
    as -> by congruence.
  repeat constructor; utf8_arith.
Qed.

Lemma utf8_decode_encode_octets (t : str) :
  forall os, utf8_encode_octets t = Some os ->
             utf8_decode_octets os = Some t
             /\ Forall (fun n => (n < 256)%N) os.
Proof.
  induction t as [|c t IH]; simpl; intros os.
  - intros [= <-]. split; [reflexivity|constructor].
  - destruct (utf8_encode_codepoint c) as [o|] eqn:Ho; [|discriminate].
    destruct (utf8_encode_octets t) as [os'|]; [|discriminate].
    intros [= <-]. destruct (IH _ eq_refl) as [Hdec Hall]. split.
    + rewrite (utf8_decode_encode_codepoint _ _ _ Ho), Hdec. reflexivity.
    + apply Forall_app. split; [|exact Hall].
      exact (utf8_encode_codepoint_octets _ _ Ho).
Qed.

Lemma to_N_octet (n : N) : (n < 256)%N -> Byte.to_N (octet n) = n.
Proof.
  intros Hn. unfold octet. destruct (Byte.of_N n) as [b|] eqn:Hb.
  - now apply Byte.to_of_N.
  - apply Byte.of_N_None_iff in Hb. lia.
Qed.

Lemma map_to_N_octet (os : list N) :
  Forall (fun n => (n < 256)%N) os -> map Byte.to_N (map octet os) = os.
Proof.
  induction 1 as [|n os Hn _ IH]; simpl; [reflexivity|].
  now rewrite to_N_octet, IH.
Qed.

(** Decoding the UTF-8 encoding of a text gives the text back. *)
Lemma utf8_decode_encode (t : str) (b : bytes) :
  utf8_encode t = Some b -> utf8_decode b = Some t.
Proof.
  unfold utf8_encode, utf8_decode.
  destruct (utf8_encode_octets t) as [os|] eqn:Hos; [|discriminate].
  intros [= <-]. destruct (utf8_decode_encode_octets _ _ Hos) as [Hdec Hall].
  now rewrite map_to_N_octet.
Qed.

(** ** What [int] accepts *)

Lemma skip_spaces_literal (a : str) :
  Forall (fun c => literal_char c = true) (skip_spaces a) ->
  Forall (fun c => literal_char c = true) a.
Proof.
  induction a as [|c a IH]; simpl; [trivial|].
  destruct (Py_ISSPACE c) eqn:Hc; [|trivial].
  intros H. constructor; [|now apply IH].
  unfold literal_char. now rewrite Hc.
Qed.

Lemma skip_spaces_nil_literal (a : str) :
  skip_spaces a = [] -> Forall (fun c => literal_char c = true) a.
Proof.
  intros H. apply skip_spaces_literal. rewrite H. constructor.
Qed.

Lemma scan_digits_literal (a : str) :
  forall prev value digits value' digits' rest,
    scan_digits prev value digits a = Some (value', digits', rest) ->
    Forall (fun c => literal_char c = true) rest ->
    Forall (fun c => literal_char c = true) a.
Proof.
  induction a as [|c a IH]; intros prev value digits value' digits' rest;
    simpl.
  - destruct prev; [discriminate|]. intros [= <- <- <-]. trivial.
  - destruct (N.eqb_spec c 95) as [->|_].
    + destruct prev; [discriminate|]. intros H Hrest.
      constructor; [reflexivity|]. exact (IH _ _ _ _ _ _ H Hrest).
    + destruct (is_digit c) eqn:Hd.
      * intros H Hrest. constructor.
        -- unfold literal_char. rewrite Hd. now rewrite !orb_true_r.
        -- exact (IH _ _ _ _ _ _ H Hrest).
      * destruct prev; [discriminate|]. intros [= <- <- <-]. trivial.
Qed.

Lemma read_digits_literal (sign : Z) (a : str) (n : Z) :
  read_digits max_str_digits sign a = Some n ->
  Forall (fun c => literal_char c = true) a.
Proof.
  unfold read_digits. destruct a as [|c a']; [discriminate|].
  destruct (c =? 95)%N; [discriminate|].
  destruct (scan_digits false 0 0 (c :: a')) as [[[value digits] rest]|]
    eqn:Hscan; [|discriminate].
  destruct (digits =? 0)%N; [discriminate|].
  destruct ((640 <? digits) && (0 <? max_str_digits)
            && (max_str_digits <? digits))%N; [discriminate|].
  destruct (skip_spaces rest) eqn:Hrest; [|discriminate].
  intros _.
  exact (scan_digits_literal _ _ _ _ _ _ _ Hscan
           (skip_spaces_nil_literal _ Hrest)).
Qed.

Lemma PyLong_FromString_literal (a : str) (n : Z) :
  PyLong_FromString max_str_digits a = Some n ->
  Forall (fun c => literal_char c = true) a.
Proof.
  unfold PyLong_FromString, read_sign. intros H. apply skip_spaces_literal.
  destruct (skip_spaces a) as [|c a1]; [discriminate|].
  destruct (N.eqb_spec c 43) as [->|_].
  { constructor; [reflexivity|]. exact (read_digits_literal _ _ _ H). }
  destruct (N.eqb_spec c 45) as [->|_].
  { constructor; [reflexivity|]. exact (read_digits_literal _ _ _ H). }
  exact (read_digits_literal _ _ _ H).
Qed.

(** An ASCII character of the string survives the transformation, unless
    the transformation stopped at a '?' before it. *)
Lemma transform_keeps_ascii (s : str) (c : codepoint) :
  In c s -> (c <? 127)%N = true ->
  In c (transform_decimal_and_space_to_ascii Py_UNICODE_TODECIMAL s)
  \/ In 63%N (transform_decimal_and_space_to_ascii Py_UNICODE_TODECIMAL s).
Proof.
  intros Hin Hc. induction s as [|d s IH]; [destruct Hin|].
  simpl. destruct Hin as [->|Hin].
  - rewrite Hc. left. now left.
  - destruct (d <? 127)%N.
    { destruct (IH Hin); [left|right]; now right. }
    destruct (Py_UNICODE_ISSPACE d).
    { destruct (IH Hin); [left|right]; now right. }
    destruct (Py_UNICODE_TODECIMAL d).
    { destruct (IH Hin); [left|right]; now right. }
    right. now left.
Qed.

(** A string that reads as an integer holds no ASCII character other than
    blanks, signs, underscores and digits. *)
Lemma int_literal_chars (s : str) (n : Z) (c : codepoint) :
  int (E:=E) Py_UNICODE_TODECIMAL max_str_digits s = inr n ->
  (c <? 127)%N = true -> literal_char c = false -> ~ In c s.
Proof.
  unfold int. intros H Hc Hlit Hin.
  destruct (PyLong_FromString _ _) as [m|] eqn:Hm; [|discriminate].
  pose proof (PyLong_FromString_literal _ _ Hm) as Hall.
  rewrite Forall_forall in Hall.
  destruct (transform_keeps_ascii s c Hin Hc) as [H1|H1];
    apply Hall in H1; [congruence|discriminate].
Qed.

Lemma int_no_equals (s : str) (n : Z) :
  int (E:=E) Py_UNICODE_TODECIMAL max_str_digits s = inr n ->
  ~ In equals_sign s.
Proof. intros H. now apply (int_literal_chars s n). Qed.

Lemma int_no_dollar (s : str) (n : Z) :
  int (E:=E) Py_UNICODE_TODECIMAL max_str_digits s = inr n ->
  ~ In dollar s.
Proof. intros H. now apply (int_literal_chars s n). Qed.

(** ** The segments of a descriptor *)

Lemma contains_false (s : str) (c : codepoint) :
  contains s c = false -> ~ In c s.
Proof.
  unfold contains. intros H Hin.
  assert (existsb (N.eqb c) s = true); [|congruence].
  apply existsb_exists. exists c. split; [exact Hin|apply N.eqb_refl].
Qed.

Lemma third_segment_scheme6 (rest : str) :
  third_segment (lit "$6$" ++ rest) = nth 0 (split rest dollar) [].
Proof. unfold third_segment. now rewrite segments_scheme6. Qed.

Lemma fourth_segment_scheme6 (rest : str) :
  fourth_segment_or_empty (lit "$6$" ++ rest) = nth 1 (split rest dollar) [].
Proof.
  unfold fourth_segment_or_empty. rewrite segments_scheme6.
  destruct (split rest dollar) as [|p2 [|p3 more]]; reflexivity.
Qed.

Lemma rounds_value_literal (v : str) :
  ~ In equals_sign v -> rounds_value (lit "rounds=" ++ v) = v.
Proof.
  intros Hv. unfold rounds_value.
  change (lit "rounds=" ++ v) with (lit "rounds" ++ equals_sign :: v).
  rewrite split_app_sep by (cbv; intuition discriminate).
  now rewrite split_no_sep.
Qed.

(** ** The shim on a descriptor of scheme 6 *)

(** After [rounds=] there is always a rounds value to index. *)
Lemma getitem_rounds_value (segment : str) :
  startswith segment (lit "rounds=") = true ->
  getitem (E:=E) (split segment equals_sign) 1 = inr (rounds_value segment).
Proof.
  intros H. destruct (startswith_inv _ _ H) as [v ->].
  unfold rounds_value.
  change (lit "rounds=" ++ v) with (lit "rounds" ++ equals_sign :: v).
  rewrite split_app_sep.
  - pose proof (split_not_nil v equals_sign) as Hne.
    destruct (split v equals_sign); [contradiction|reflexivity].
  - cbv. intuition discriminate.
Qed.

(** [try: rounds = int(rounds_str) except ValueError: rounds = 5000] *)
Lemma catch_int (rounds_str : str) :
  catch (int (E:=E) Py_UNICODE_TODECIMAL max_str_digits rounds_str)
        (fun e => match e with
                  | ValueError _ => ret 5000%Z
                  | _ => raise e
                  end)
  = inr (rounds_or_default rounds_str).
Proof.
  unfold rounds_or_default, int.
  destruct (PyLong_FromString _ _); reflexivity.
Qed.

Lemma crypt_scheme6 (word : pyword) (salt : str) :
  startswith salt (lit "$6$") = true ->
  crypt word salt =
    (text <- decode_word word ;;
     if startswith (third_segment salt) (lit "rounds=") then
       sha512_crypt_using_hash
         (rounds_or_default (rounds_value (third_segment salt)))
         (fourth_segment_or_empty salt) text
     else sha512_crypt_using_hash 5000 (third_segment salt) text).
Proof.
  intros H. destruct (startswith_inv _ _ H) as [rest ->].
  unfold crypt. destruct (decode_word word) as [e|text]; [reflexivity|].
  cbn [bind Monad_either]. rewrite H. cbn [negb].
  unfold third_segment, fourth_segment_or_empty.
  fold (segments (lit "$6$" ++ rest)). rewrite segments_scheme6.
  pose proof (split_not_nil rest dollar) as Hne.
  destruct (split rest dollar) as [|p2 more]; [contradiction|].
  cbn [List.length Nat.ltb Nat.leb getitem nth_error nth bind ret Monad_either].
  destruct (startswith p2 (lit "rounds=")) eqn:HR; [|reflexivity].
  rewrite (getitem_rounds_value _ HR), catch_int.
  destruct more; reflexivity.
Qed.

(** Decoding the password can only fail with UnicodeDecodeError. *)
Lemma decode_word_error (word : pyword) (e : exn E) :
  decode_word word = inl e -> e = UnicodeDecodeError.
Proof.
  destruct word as [s|b]; simpl; [discriminate|].
  destruct (utf8_decode b); [discriminate|]. now intros [= <-].
Qed.

(** ** The contract of [crypt] *)

(** C1. On a descriptor [$6$<salt-chars>] whose salt characters form one
    segment that does not begin with [rounds=], [crypt] is the reference
    SHA-512 crypt hash of the password with salt material [<salt-chars>]
    and the default round count 5000; so it is on [$6$abcdefgh], with
    salt [abcdefgh]. *)
Theorem crypt_default_rounds_is_reference
        (password : pyword) (salt_chars : str) :
  contains salt_chars dollar = false ->
  startswith salt_chars (lit "rounds=") = false ->
  crypt password (lit "$6$" ++ salt_chars)
  = reference_hash password salt_chars 5000
  /\ crypt password (lit "$6$abcdefgh")
     = reference_hash password (lit "abcdefgh") 5000.
Proof.
  intros Hdollar Hrounds. split.
  - rewrite crypt_scheme6 by apply startswith_app.
    rewrite third_segment_scheme6.
    rewrite split_no_sep by now apply contains_false.
    cbn [nth]. now rewrite Hrounds.
  - now rewrite crypt_scheme6.
Qed.

(** C2. On a descriptor that starts with [$6$] and whose third segment is
    [rounds=<N>] with [<N>] read by [int] as the integer [n], [crypt] calls
    the primitive with round count exactly [n] and with the fourth segment
    as salt material, the empty string if there is none; on
    [$6$rounds=10000$abcdefgh] the round count is 10000. *)
Theorem crypt_explicit_rounds
        (password : pyword) (salt rounds_literal : str) (n : Z) :
  startswith salt (lit "$6$") = true ->
  third_segment salt = lit "rounds=" ++ rounds_literal ->
  int (E:=E) Py_UNICODE_TODECIMAL max_str_digits rounds_literal = inr n ->
  crypt password salt
  = reference_hash password (fourth_segment_or_empty salt) n
  /\ crypt password (lit "$6$rounds=10000$abcdefgh")
     = reference_hash password (lit "abcdefgh") 10000.
Proof.
  intros Hscheme Hthird Hint. split.
  - rewrite (crypt_scheme6 _ _ Hscheme), Hthird, startswith_app.
    rewrite rounds_value_literal by exact (int_no_equals _ _ Hint).
    unfold rounds_or_default. now rewrite Hint.
  - now rewrite crypt_scheme6.
Qed.

(** The except branch.  On a descriptor that starts with [$6$] and whose
    third segment begins with [rounds=], when what stands between the first
    and the second [=] does not read as an integer the shim raises nothing:
    it calls the primitive with the default round count 5000, and returns
    the hash the primitive returns; so it does on
    [$6$rounds=notanumber$abcdefgh]. *)
Lemma crypt_unparseable_rounds_fall_back
        (password : pyword) (salt : str) (e : exn E) :
  startswith salt (lit "$6$") = true ->
  startswith (third_segment salt) (lit "rounds=") = true ->
  int Py_UNICODE_TODECIMAL max_str_digits (rounds_value (third_segment salt))
  = inl e ->
  crypt password salt
  = reference_hash password (fourth_segment_or_empty salt) 5000
  /\ (forall text h,
        decode_word password = inr text ->
        sha512_crypt 5000 (fourth_segment_or_empty salt) text = inr h ->
        crypt password salt = inr h)
  /\ crypt password (lit "$6$rounds=notanumber$abcdefgh")
     = reference_hash password (lit "abcdefgh") 5000.
Proof.
  intros Hscheme Hrounds Hint.
  assert (Hcrypt : crypt password salt
                   = reference_hash password (fourth_segment_or_empty salt)
                                    5000).
  { rewrite (crypt_scheme6 _ _ Hscheme), Hrounds.
    unfold rounds_or_default. now rewrite Hint. }
  split; [exact Hcrypt|]. split.
  - intros text h Htext Hh. rewrite Hcrypt. unfold reference_hash.
    rewrite Htext. cbn [bind Monad_either].
    unfold sha512_crypt_using_hash. now rewrite Hh.
  - now rewrite crypt_scheme6.
Qed.

(** C4. For a password that is text or decodes as UTF-8 and a descriptor
    that does not start with [$6$], [crypt] raises the ValueError of an
    unsupported scheme, whose message ends with the first three characters
    of the descriptor; on [$5$abcdefgh] it reports [$5$]. *)
Theorem crypt_unsupported_scheme
        (password : pyword) (text salt : str) :
  decode_word password = inr text ->
  startswith salt (lit "$6$") = false ->
  crypt password salt
  = inl (ValueError (lit "Only SHA-512 crypt ($6$) is supported, got: "
                     ++ slice_to 3 salt))
  /\ crypt password (lit "$5$abcdefgh")
     = inl (ValueError
              (lit "Only SHA-512 crypt ($6$) is supported, got: $5$")).
Proof.
  intros Htext Hscheme. unfold crypt. rewrite Htext.
  cbn [bind Monad_either]. rewrite Hscheme. split; reflexivity.
Qed.

(** C5, as the code has it. On the descriptor [$6], which does not start
    with [$6$], a password that is text or decodes as UTF-8 gets the
    ValueError of an unsupported scheme that reports [$6]; the outcome is
    never the "Invalid salt format" error. *)
Theorem crypt_dollar_six_is_unsupported_scheme (password : pyword) :
  crypt password (lit "$6")
  = (_ <- decode_word password ;;
     raise (ValueError
              (lit "Only SHA-512 crypt ($6$) is supported, got: $6")))
  /\ raises_invalid_salt_format (crypt password (lit "$6")) = false.
Proof.
  unfold crypt. destruct (decode_word password) as [e|text] eqn:Hword.
  - split; [reflexivity|].
    now rewrite (decode_word_error _ _ Hword).
  - split; reflexivity.
Qed.

(** C6. A byte password that is not valid UTF-8 makes [crypt] raise
    UnicodeDecodeError, whatever the descriptor. *)
Theorem crypt_invalid_utf8_password (b : bytes) (salt : str) :
  utf8_decode b = None ->
  crypt (Bytes b) salt = inl UnicodeDecodeError.
Proof.
  intros Hb. unfold crypt, decode_word. now rewrite Hb.
Qed.

(** C7. The UTF-8 encoding of a text password gives the same outcome as
    the text itself, for every descriptor. *)
Theorem crypt_bytes_password_as_text (t : str) (b : bytes) (salt : str) :
  utf8_encode t = Some b ->
  crypt (Bytes b) salt = crypt (Text t) salt.
Proof.
  intros Hb. unfold crypt, decode_word.
  now rewrite (utf8_decode_encode _ _ Hb).
Qed.

(** C9. A descriptor that passes the [$6$] check has at least three
    segments, and the outcome of [crypt] is never the "Invalid salt format"
    error: that branch cannot be reached. *)
Theorem crypt_never_invalid_salt_format (password : pyword) (salt : str) :
  (startswith salt (lit "$6$") = false
   \/ 3 <= List.length (segments salt))
  /\ raises_invalid_salt_format (crypt password salt) = false.
Proof.
  destruct (startswith salt (lit "$6$")) eqn:Hscheme.
  - split.
    + right. destruct (startswith_inv _ _ Hscheme) as [rest ->].
      rewrite segments_scheme6.
      pose proof (split_not_nil rest dollar) as Hne.
      destruct (split rest dollar); [contradiction|]. simpl. lia.
    + rewrite (crypt_scheme6 _ _ Hscheme).
      destruct (decode_word password) as [e|text] eqn:Hword.
      * now rewrite (decode_word_error _ _ Hword).
      * cbn [bind Monad_either]. unfold sha512_crypt_using_hash.
        destruct (startswith (third_segment salt) (lit "rounds="));
          destruct (sha512_crypt _ _ _); reflexivity.
  - split; [now left|]. unfold crypt.
    destruct (decode_word password) as [e|text] eqn:Hword.
    + now rewrite (decode_word_error _ _ Hword).
    + cbn [bind Monad_either]. now rewrite Hscheme.
Qed.

(** C10. On a descriptor [$6$rounds=<s>$...] where [<s>] reads as the
    integer [n], [crypt] hands [n] to the primitive as it is, whatever its
    sign or size; [$6$rounds=-5$abc] gives the round count -5. *)
Theorem crypt_rounds_passed_unchanged
        (password : pyword) (s tail : str) (n : Z) :
  int (E:=E) Py_UNICODE_TODECIMAL max_str_digits s = inr n ->
  crypt password (lit "$6$rounds=" ++ s ++ dollar :: tail)
  = reference_hash password (nth 0 (split tail dollar) []) n
  /\ crypt password (lit "$6$rounds=-5$abc")
     = reference_hash password (lit "abc") (-5).
Proof.
  intros Hint. split; [|now rewrite crypt_scheme6].
  change (lit "$6$rounds=" ++ s ++ dollar :: tail)
    with (lit "$6$" ++ (lit "rounds=" ++ s) ++ dollar :: tail).
  rewrite crypt_scheme6 by apply startswith_app.
  rewrite third_segment_scheme6, fourth_segment_scheme6.
  assert (Hsplit : split ((lit "rounds=" ++ s) ++ dollar :: tail) dollar
                   = (lit "rounds=" ++ s) :: split tail dollar).
  { apply split_app_sep. intros Hin. apply in_app_or in Hin as [Hin|Hin].
    - revert Hin. cbv. intuition discriminate.
    - exact (int_no_dollar _ _ Hint Hin). }
  rewrite Hsplit. cbn [nth]. rewrite startswith_app.
  rewrite rounds_value_literal by exact (int_no_equals _ _ Hint).
  unfold rounds_or_default. rewrite Hint.
  pose proof (split_not_nil tail dollar) as Hne.
  destruct (split tail dollar); [contradiction|reflexivity].
Qed.

(** Only what stands before a second [=] is read: on [rounds=10=x] the
    round count is 10. *)
Example crypt_rounds_before_second_equals (password : pyword) :
  crypt password (lit "$6$rounds=10=x$abc")
  = reference_hash password (lit "abc") 10.
Proof. now rewrite crypt_scheme6. Qed.

(** A descriptor that ends after the rounds has the empty salt. *)
Example crypt_rounds_without_salt (password : pyword) :
  crypt password (lit "$6$rounds=10000")
  = reference_hash password [] 10000.
Proof. now rewrite crypt_scheme6. Qed.

(** ** Further properties of the shim *)

Lemma not_in_contains (s : str) (c : codepoint) :
  ~ In c s -> contains s c = false.
Proof.
  unfold contains. intros H. destruct (existsb (N.eqb c) s) eqn:Hex;
    [|reflexivity].
  apply existsb_exists in Hex as (d & Hd & Hcd). apply N.eqb_eq in Hcd.
  subst d. contradiction.
Qed.

(** Every part of a split is free of the separator. *)
Lemma split_parts_no_sep (s : str) (sep : codepoint) (part : str) :
  In part (split s sep) -> ~ In sep part.
Proof.
  revert part; induction s as [|c s IH]; intros part; simpl.
  - intros [<-|[]] [].
  - destruct (N.eqb_spec c sep) as [->|Hc].
    + intros [<-|Hin]; [intros []|now apply IH].
    + pose proof (split_not_nil s sep) as Hne.
      destruct (split s sep) as [|q qs]; [contradiction|].
      intros [<-|Hin].
      * intros [Heq|Hq]; [now apply Hc|]. apply (IH q); [now left|exact Hq].
      * apply IH. now right.
Qed.

Lemma nth_split_no_sep (s : str) (sep : codepoint) (i : nat) :
  contains (nth i (split s sep) []) sep = false.
Proof.
  apply not_in_contains.
  destruct (nth_in_or_default i (split s sep) []) as [Hin| ->].
  - exact (split_parts_no_sep _ _ _ Hin).
  - intros [].
Qed.

(** The shim in terms of the segments that follow the marker. *)
Lemma crypt_after_marker (password : pyword) (rest p2 : str)
      (more : list str) :
  split rest dollar = p2 :: more ->
  crypt password (lit "$6$" ++ rest)
  = if startswith p2 (lit "rounds=")
    then reference_hash password (nth 0 more [])
                        (rounds_or_default (rounds_value p2))
    else reference_hash password p2 5000.
Proof.
  intros Hsplit. rewrite crypt_scheme6 by apply startswith_app.
  rewrite third_segment_scheme6, fourth_segment_scheme6, Hsplit.
  cbn [nth]. unfold reference_hash.
  destruct (startswith p2 (lit "rounds=")); reflexivity.
Qed.

Lemma rounds_literal_no_dollar (r : str) :
  contains r dollar = false -> ~ In dollar (lit "rounds=" ++ r).
Proof.
  intros Hr Hin. apply in_app_or in Hin as [Hin|Hin].
  - revert Hin. cbv. intuition discriminate.
  - exact (contains_false _ _ Hr Hin).
Qed.

(** X1. The shim has two errors of its own, UnicodeDecodeError and the
    ValueError of an unsupported scheme; every other outcome is that of one
    call of the primitive.  No index goes out of range. *)
Theorem crypt_outcomes (password : pyword) (salt : str) :
  (crypt password salt = inl UnicodeDecodeError
   \/ crypt password salt = inl (ValueError (unsupported_scheme_message salt))
   \/ exists rounds salt_value text,
       decode_word password = inr text
       /\ startswith salt (lit "$6$") = true
       /\ crypt password salt
          = sha512_crypt_using_hash rounds salt_value text)
  /\ crypt password salt <> inl IndexError.
Proof.
  assert (Hcases :
            crypt password salt = inl UnicodeDecodeError
            \/ crypt password salt
               = inl (ValueError (unsupported_scheme_message salt))
            \/ exists rounds salt_value text,
                decode_word password = inr text
                /\ startswith salt (lit "$6$") = true
                /\ crypt password salt
                   = sha512_crypt_using_hash rounds salt_value text).
  { destruct (decode_word password) as [e|text] eqn:Hword.
    { left. unfold crypt. rewrite Hword.
      now rewrite (decode_word_error _ _ Hword). }
    destruct (startswith salt (lit "$6$")) eqn:Hscheme.
    - right. right. rewrite (crypt_scheme6 _ _ Hscheme), Hword.
      cbn [bind Monad_either].
      destruct (startswith (third_segment salt) (lit "rounds="));
        eexists; eexists; exists text; repeat split; reflexivity.
    - right. left. unfold crypt. rewrite Hword. cbn [bind Monad_either].
      now rewrite Hscheme. }
  split; [exact Hcases|].
  destruct Hcases as [H|[H|(rounds & salt_value & text & _ & _ & H)]];
    rewrite H; try discriminate.
  unfold sha512_crypt_using_hash.
  destruct (sha512_crypt rounds salt_value text); discriminate.
Qed.

(** X2. The round count and the salt handed to the primitive depend on the
    descriptor alone, not on the password, and that salt holds no [$]. *)
Theorem crypt_salt_value_has_no_dollar (salt : str) :
  startswith salt (lit "$6$") = true ->
  exists rounds salt_value,
    contains salt_value dollar = false
    /\ forall password,
        crypt password salt = reference_hash password salt_value rounds.
Proof.
  intros Hscheme.
  destruct (startswith (third_segment salt) (lit "rounds=")) eqn:Hrounds.
  - exists (rounds_or_default (rounds_value (third_segment salt))),
      (fourth_segment_or_empty salt). split.
    + destruct (startswith_inv _ _ Hscheme) as [rest ->].
      rewrite fourth_segment_scheme6. apply nth_split_no_sep.
    + intros password. rewrite (crypt_scheme6 _ _ Hscheme), Hrounds.
      reflexivity.
  - exists 5000%Z, (third_segment salt). split.
    + apply nth_split_no_sep.
    + intros password. rewrite (crypt_scheme6 _ _ Hscheme), Hrounds.
      reflexivity.
Qed.

(** X3. Without rounds, whatever follows the salt segment is ignored: a
    full crypt string [$6$<salt>$<digest>] used as descriptor gives the same
    outcome as [$6$<salt>]. *)
Theorem crypt_ignores_after_salt
        (password : pyword) (salt_chars tail : str) :
  contains salt_chars dollar = false ->
  startswith salt_chars (lit "rounds=") = false ->
  crypt password (lit "$6$" ++ salt_chars ++ dollar :: tail)
  = crypt password (lit "$6$" ++ salt_chars).
Proof.
  intros Hdollar Hrounds. apply contains_false in Hdollar.
  rewrite (crypt_after_marker _ _ _ _ (split_app_sep _ tail _ Hdollar)).
  rewrite (crypt_after_marker _ _ _ _ (split_no_sep _ _ Hdollar)).
  now rewrite Hrounds.
Qed.

(** X4. With rounds, whatever follows the salt segment is ignored as well:
    [$6$rounds=<r>$<salt>$<digest>] gives the same outcome as
    [$6$rounds=<r>$<salt>], whether [<r>] reads as an integer or not. *)
Theorem crypt_ignores_after_rounds_salt
        (password : pyword) (r salt_chars tail : str) :
  contains r dollar = false ->
  contains salt_chars dollar = false ->
  crypt password
        (lit "$6$rounds=" ++ r ++ dollar :: salt_chars ++ dollar :: tail)
  = crypt password (lit "$6$rounds=" ++ r ++ dollar :: salt_chars).
Proof.
  intros Hr Hsalt. apply contains_false in Hsalt.
  pose proof (rounds_literal_no_dollar _ Hr) as Hlit.
  change (lit "$6$rounds=" ++ r ++ dollar :: salt_chars ++ dollar :: tail)
    with (lit "$6$" ++ (lit "rounds=" ++ r)
                    ++ dollar :: salt_chars ++ dollar :: tail).
  change (lit "$6$rounds=" ++ r ++ dollar :: salt_chars)
    with (lit "$6$" ++ (lit "rounds=" ++ r) ++ dollar :: salt_chars).
  rewrite (crypt_after_marker password _ (lit "rounds=" ++ r)
             (salt_chars :: split tail dollar)).
  2:{ rewrite (split_app_sep _ _ _ Hlit).
      now rewrite (split_app_sep _ _ _ Hsalt). }
  rewrite (crypt_after_marker password _ (lit "rounds=" ++ r) [salt_chars]).
  2:{ rewrite (split_app_sep _ _ _ Hlit). now rewrite (split_no_sep _ _ Hsalt). }
  reflexivity.
Qed.

(** X5. In the rounds segment only what stands before a second [=] is
    read: [$6$rounds=<v>=<junk>$...] gives the same outcome as
    [$6$rounds=<v>$...]. *)
Theorem crypt_ignores_after_second_equals
        (password : pyword) (v junk tail : str) :
  contains v dollar = false -> contains v equals_sign = false ->
  contains junk dollar = false ->
  crypt password
        (lit "$6$rounds=" ++ v ++ equals_sign :: junk ++ dollar :: tail)
  = crypt password (lit "$6$rounds=" ++ v ++ dollar :: tail).
Proof.
  intros Hv Hveq Hjunk.
  apply contains_false in Hveq. apply contains_false in Hjunk.
  pose proof (rounds_literal_no_dollar _ Hv) as Hlit.
  assert (Hlong : ~ In dollar ((lit "rounds=" ++ v) ++ equals_sign :: junk)).
  { intros Hin. apply in_app_or in Hin as [Hin|[Hin|Hin]];
      [now apply Hlit|discriminate|now apply Hjunk]. }
  assert (Hshape :
            lit "$6$rounds=" ++ v ++ equals_sign :: junk ++ dollar :: tail
            = lit "$6$" ++ ((lit "rounds=" ++ v) ++ equals_sign :: junk)
                        ++ dollar :: tail).
  { rewrite <- !app_assoc. reflexivity. }
  rewrite Hshape.
  change (lit "$6$rounds=" ++ v ++ dollar :: tail)
    with (lit "$6$" ++ (lit "rounds=" ++ v) ++ dollar :: tail).
  rewrite (crypt_after_marker _ _ _ _ (split_app_sep _ tail _ Hlong)).
  rewrite (crypt_after_marker _ _ _ _ (split_app_sep _ tail _ Hlit)).
  rewrite <- !app_assoc, !startswith_app.
  rewrite (rounds_value_literal _ Hveq).
  replace (rounds_value (lit "rounds=" ++ v ++ equals_sign :: junk)) with v;
    [reflexivity|].
  unfold rounds_value.
  change (lit "rounds=" ++ v ++ equals_sign :: junk)
    with (lit "rounds" ++ equals_sign :: v ++ equals_sign :: junk).
  rewrite split_app_sep by (cbv; intuition discriminate).
  now rewrite (split_app_sep _ _ _ Hveq).
Qed.

(** X6. Rounds that resolve to 5000, because the rounds value reads as 5000
    or because it does not read as an integer, give the same outcome as a
    descriptor without rounds. *)
Theorem crypt_default_rounds_same_as_omitted
        (password : pyword) (v salt_chars : str) :
  contains v dollar = false -> contains v equals_sign = false ->
  rounds_or_default v = 5000%Z ->
  contains salt_chars dollar = false ->
  startswith salt_chars (lit "rounds=") = false ->
  crypt password (lit "$6$rounds=" ++ v ++ dollar :: salt_chars)
  = crypt password (lit "$6$" ++ salt_chars).
Proof.
  intros Hv Hveq Hdefault Hsalt Hrounds.
  apply contains_false in Hveq. apply contains_false in Hsalt.
  pose proof (rounds_literal_no_dollar _ Hv) as Hlit.
  change (lit "$6$rounds=" ++ v ++ dollar :: salt_chars)
    with (lit "$6$" ++ (lit "rounds=" ++ v) ++ dollar :: salt_chars).
  rewrite (crypt_after_marker password _ (lit "rounds=" ++ v) [salt_chars]).
  2:{ rewrite (split_app_sep _ _ _ Hlit). now rewrite (split_no_sep _ _ Hsalt). }
  rewrite (crypt_after_marker _ _ _ _ (split_no_sep _ _ Hsalt)).
  rewrite startswith_app, Hrounds, (rounds_value_literal _ Hveq), Hdefault.
  reflexivity.
Qed.

(** X7. A descriptor of fewer than three characters, the empty one
    included, is refused as an unsupported scheme, and the message quotes it
    whole. *)
Theorem crypt_short_descriptor (password : pyword) (text salt : str) :
  decode_word password = inr text ->
  List.length salt < 3 ->
  crypt password salt
  = inl (ValueError
           (lit "Only SHA-512 crypt ($6$) is supported, got: " ++ salt)).
Proof.
  intros Hword Hlen. unfold crypt. rewrite Hword. cbn [bind Monad_either].
  assert (Hscheme : startswith salt (lit "$6$") = false).
  { destruct salt as [|a [|b [|c s]]]; simpl in *; try lia;
      rewrite ?andb_false_r; reflexivity. }
  rewrite Hscheme. cbn [negb]. unfold unsupported_scheme_message, slice_to.
  rewrite firstn_all2 by lia. reflexivity.
Qed.

(** X10. With rounds, a descriptor that ends after the rounds segment gives
    the same outcome as one with an empty salt segment: a missing salt is the
    empty salt, not an error. *)
Theorem crypt_missing_salt_is_empty_salt (password : pyword) (r : str) :
  contains r dollar = false ->
  crypt password (lit "$6$rounds=" ++ r)
  = crypt password (lit "$6$rounds=" ++ r ++ [dollar]).
Proof.
  intros Hr. pose proof (rounds_literal_no_dollar _ Hr) as Hlit.
  change (lit "$6$rounds=" ++ r) with (lit "$6$" ++ (lit "rounds=" ++ r)).
  change (lit "$6$rounds=" ++ r ++ [dollar])
    with (lit "$6$" ++ (lit "rounds=" ++ r) ++ [dollar]).
  rewrite (crypt_after_marker _ _ _ _ (split_no_sep _ _ Hlit)).
  rewrite (crypt_after_marker _ _ _ _ (split_app_sep _ [] _ Hlit)).
  reflexivity.
Qed.

(** ** The choice of the implementation *)

Lemma tuple_ge_3_13 (major minor : N) (rest : list N) :
  tuple_ge (major :: minor :: rest) [3; 13]%N
  = ((3 <? major) || ((major =? 3) && (13 <=? minor)))%N.
Proof.
  simpl. destruct (N.eqb_spec major 3) as [->|Hm].
  - destruct (N.eqb_spec minor 13) as [->|Hn]; [reflexivity|].
    cbn [orb andb]. destruct (N.ltb_spec 13 minor), (N.leb_spec 13 minor);
      try reflexivity; lia.
  - now rewrite andb_false_l, orb_false_r.
Qed.

(** X8. On an interpreter older than 3.13 the module is the standard
    [crypt], found or not, whether passlib is installed or not. *)
Theorem import_before_3_13
        (major minor : N) (rest : list N) (passlib_importable : bool)
        (stdlib_crypt : import_result) :
  (major < 3 \/ (major = 3 /\ minor < 13))%N ->
  import_crypt_compat (major :: minor :: rest) passlib_importable
                      stdlib_crypt
  = stdlib_crypt.
Proof.
  intros Hversion. unfold import_crypt_compat. rewrite tuple_ge_3_13.
  replace ((3 <? major) || ((major =? 3) && (13 <=? minor)))%N with false;
    [reflexivity|].
  symmetry. destruct (N.ltb_spec 3 major), (N.eqb_spec major 3),
    (N.leb_spec 13 minor); try reflexivity; lia.
Qed.

(** X9. From 3.13 on the module never looks at the standard [crypt]: it
    exports the shim when passlib can be imported and raises ImportError
    otherwise. *)
Theorem import_from_3_13
        (major minor : N) (rest : list N) (passlib_importable : bool)
        (stdlib_crypt : import_result) :
  (3 < major \/ (major = 3 /\ 13 <= minor))%N ->
  import_crypt_compat (major :: minor :: rest) passlib_importable
                      stdlib_crypt
  = if passlib_importable then Exports crypt
    else ImportError
           (lit "passlib is required for crypt module compatibility in Python 3.13+. Install it with: pip install passlib").
Proof.
  intros Hversion. unfold import_crypt_compat. rewrite tuple_ge_3_13.
  replace ((3 <? major) || ((major =? 3) && (13 <=? minor)))%N with true;
    [reflexivity|].
  symmetry. destruct (N.ltb_spec 3 major), (N.eqb_spec major 3),
    (N.leb_spec 13 minor); try reflexivity; lia.
Qed.

End CryptCompat.

(** ** The rounds segment with a second [=] *)

(** C3. On [$6$rounds=20000=x$abc] the text after [rounds=], [20000=x],
    does not read as an integer, yet the shim does not fall back to the
    default 5000 rounds: it reads [20000] and calls the primitive with 20000
    rounds and the salt [abc]. *)
Theorem crypt_second_equals_keeps_rounds :
  int (E:=Z * str * str) no_unicode_digits default_max_str_digits
      (lit "20000=x")
  = inl (ValueError (lit "invalid literal for int() with base 10"))
  /\ crypt (Z * str * str) recording_sha512_crypt no_unicode_digits
           default_max_str_digits
           (Text (lit "hunter2")) (lit "$6$rounds=20000=x$abc")
     = inl (PasslibError (20000%Z, lit "abc", lit "hunter2"))
  /\ crypt (Z * str * str) recording_sha512_crypt no_unicode_digits
           default_max_str_digits
           (Text (lit "hunter2")) (lit "$6$rounds=20000=x$abc")
     <> inl (PasslibError (5000%Z, lit "abc", lit "hunter2")).
Proof.
  split; [reflexivity|]. split; [reflexivity|]. discriminate.
Qed.

(** ** The hash of a descriptor of scheme 6 *)

Lemma crypt_string_scheme6 (rounds : Z) (salt digest : str) :
  startswith (crypt_string rounds salt digest) (lit "$6$") = true.
Proof.
  unfold crypt_string. destruct (rounds =? 5000)%Z; reflexivity.
Qed.

(** C8. With the primitive of the specification, for a password that is
    text or decodes as UTF-8 and a descriptor of scheme 6, [crypt] returns a
    hash; the hash starts with [$6$]; it is the hash result for the round
    count and the salt the descriptor resolves to and for the digest of the
    text of the password under them, so nothing else enters it; every
    password with the same text gets the same hash from the same
    descriptor. *)
Theorem crypt_scheme6_hash_is_pure
        (E : Type) (digest : Z -> str -> str -> str)
        (Py_UNICODE_TODECIMAL : codepoint -> option N) (max_str_digits : N)
        (password : pyword) (text salt : str) :
  decode_word E password = inr text ->
  startswith salt (lit "$6$") = true ->
  exists h,
    crypt E (spec_sha512_crypt digest) Py_UNICODE_TODECIMAL max_str_digits
          password salt = inr h
    /\ startswith h (lit "$6$") = true
    /\ h = crypt_string
             (descriptor_rounds E Py_UNICODE_TODECIMAL max_str_digits salt)
             (descriptor_salt salt)
             (digest
                (descriptor_rounds E Py_UNICODE_TODECIMAL max_str_digits salt)
                (descriptor_salt salt) text)
    /\ forall password',
        decode_word E password' = inr text ->
        crypt E (spec_sha512_crypt digest) Py_UNICODE_TODECIMAL max_str_digits
              password' salt = inr h.
Proof.
  intros Htext Hscheme.
  assert (Hcrypt : forall word,
             decode_word E word = inr text ->
             crypt E (spec_sha512_crypt digest) Py_UNICODE_TODECIMAL
                   max_str_digits word salt
             = inr (crypt_string
                      (descriptor_rounds E Py_UNICODE_TODECIMAL max_str_digits
                                         salt)
                      (descriptor_salt salt)
                      (digest
                         (descriptor_rounds E Py_UNICODE_TODECIMAL
                                            max_str_digits salt)
                         (descriptor_salt salt) text))).
  { intros word Hword. rewrite (crypt_scheme6 _ _ _ _ _ _ Hscheme), Hword.
    cbn [bind Monad_either]. unfold descriptor_rounds, descriptor_salt.
    destruct (startswith (third_segment salt) (lit "rounds="));
      reflexivity. }
  eexists. split; [exact (Hcrypt _ Htext)|]. split; [|split].
  - apply crypt_string_scheme6.
  - reflexivity.
  - exact Hcrypt.
Qed.

(** ** The theorems at work

    The shim over the stand-in primitive, on concrete passwords and
    descriptors. *)
Abbreviation toy_crypt :=
  (crypt unit toy_sha512_crypt no_unicode_digits default_max_str_digits).

Lemma crypt_default_rounds_is_reference_witness :
  contains (lit "abcdefgh") dollar = false
  /\ startswith (lit "abcdefgh") (lit "rounds=") = false
  /\ toy_crypt (Text (lit "hunter2")) (lit "$6$" ++ lit "abcdefgh")
     = inr (lit "$6$abcdefgh$hunter2").
Proof.
  split; [reflexivity|]. split; [reflexivity|].
  rewrite (proj1 (crypt_default_rounds_is_reference
                    unit toy_sha512_crypt no_unicode_digits
                    default_max_str_digits
                    (Text (lit "hunter2")) (lit "abcdefgh")
                    eq_refl eq_refl)).
  reflexivity.
Defined.

Lemma crypt_explicit_rounds_witness :
  startswith (lit "$6$rounds=10000$abcdefgh") (lit "$6$") = true
  /\ third_segment (lit "$6$rounds=10000$abcdefgh")
     = lit "rounds=" ++ lit "10000"
  /\ int (E:=unit) no_unicode_digits default_max_str_digits (lit "10000")
     = inr 10000%Z
  /\ toy_crypt (Text (lit "hunter2")) (lit "$6$rounds=10000$abcdefgh")
     = reference_hash unit toy_sha512_crypt (Text (lit "hunter2"))
                      (lit "abcdefgh") 10000.
Proof.
  split; [reflexivity|]. split; [reflexivity|]. split; [reflexivity|].
  exact (proj1 (crypt_explicit_rounds
                  unit toy_sha512_crypt no_unicode_digits
                  default_max_str_digits
                  (Text (lit "hunter2")) (lit "$6$rounds=10000$abcdefgh")
                  (lit "10000") 10000 eq_refl eq_refl eq_refl)).
Defined.

Lemma crypt_unsupported_scheme_witness :
  decode_word unit (Bytes [x70; x77]) = inr (lit "pw")
  /\ startswith (lit "$5$abcdefgh") (lit "$6$") = false
  /\ toy_crypt (Bytes [x70; x77]) (lit "$5$abcdefgh")
     = inl (ValueError
              (lit "Only SHA-512 crypt ($6$) is supported, got: $5$")).
Proof.
  split; [reflexivity|]. split; [reflexivity|].
  exact (proj1 (crypt_unsupported_scheme
                  unit toy_sha512_crypt no_unicode_digits
                  default_max_str_digits
                  (Bytes [x70; x77]) (lit "pw") (lit "$5$abcdefgh")
                  eq_refl eq_refl)).
Defined.

(** The descriptor [$6] is refused as an unsupported scheme, not as an
    invalid salt format. *)
Lemma crypt_dollar_six_not_malformed_salt :
  toy_crypt (Text (lit "hunter2")) (lit "$6")
  <> inl (ValueError (lit "Invalid salt format: $6")).
Proof. discriminate. Qed.

Lemma crypt_invalid_utf8_password_witness :
  utf8_decode [xff; x70; x77] = None
  /\ toy_crypt (Bytes [xff; x70; x77]) (lit "$6$abcdefgh")
     = inl UnicodeDecodeError.
Proof.
  split; [reflexivity|].
  exact (crypt_invalid_utf8_password
           unit toy_sha512_crypt no_unicode_digits default_max_str_digits
           [xff; x70; x77] (lit "$6$abcdefgh") eq_refl).
Defined.

Lemma crypt_bytes_password_as_text_witness :
  utf8_encode [112; 233; 8364; 128512]%N
  = Some [x70; xc3; xa9; xe2; x82; xac; xf0; x9f; x98; x80]
  /\ toy_crypt (Bytes [x70; xc3; xa9; xe2; x82; xac; xf0; x9f; x98; x80])
               (lit "$6$abcdefgh")
     = toy_crypt (Text [112; 233; 8364; 128512]%N) (lit "$6$abcdefgh").
Proof.
  split; [reflexivity|].
  exact (crypt_bytes_password_as_text
           unit toy_sha512_crypt no_unicode_digits default_max_str_digits
           [112; 233; 8364; 128512]%N
           [x70; xc3; xa9; xe2; x82; xac; xf0; x9f; x98; x80]
           (lit "$6$abcdefgh") eq_refl).
Defined.

Lemma crypt_rounds_passed_unchanged_witness :
  int (E:=unit) no_unicode_digits default_max_str_digits (lit "-5")
  = inr (-5)%Z
  /\ toy_crypt (Text (lit "hunter2"))
               (lit "$6$rounds=" ++ lit "-5" ++ dollar :: lit "abc")
     = reference_hash unit toy_sha512_crypt (Text (lit "hunter2"))
                      (nth 0 (split (lit "abc") dollar) []) (-5).
Proof.
  split; [reflexivity|].
  exact (proj1 (crypt_rounds_passed_unchanged
                  unit toy_sha512_crypt no_unicode_digits
                  default_max_str_digits
                  (Text (lit "hunter2")) (lit "-5") (lit "abc") (-5)
                  eq_refl)).
Defined.

Lemma crypt_salt_value_has_no_dollar_witness :
  startswith (lit "$6$rounds=10000$abcdefgh$digest") (lit "$6$") = true
  /\ exists rounds salt_value,
      contains salt_value dollar = false
      /\ forall password,
          toy_crypt password (lit "$6$rounds=10000$abcdefgh$digest")
          = reference_hash unit toy_sha512_crypt password salt_value rounds.
Proof.
  split; [reflexivity|].
  exact (crypt_salt_value_has_no_dollar
           unit toy_sha512_crypt no_unicode_digits default_max_str_digits
           (lit "$6$rounds=10000$abcdefgh$digest") eq_refl).
Defined.

Lemma crypt_ignores_after_salt_witness :
  contains (lit "abcdefgh") dollar = false
  /\ startswith (lit "abcdefgh") (lit "rounds=") = false
  /\ toy_crypt (Text (lit "hunter2"))
               (lit "$6$" ++ lit "abcdefgh" ++ dollar :: lit "digest")
     = toy_crypt (Text (lit "hunter2")) (lit "$6$" ++ lit "abcdefgh").
Proof.
  split; [reflexivity|]. split; [reflexivity|].
  exact (crypt_ignores_after_salt
           unit toy_sha512_crypt no_unicode_digits default_max_str_digits
           (Text (lit "hunter2")) (lit "abcdefgh") (lit "digest")
           eq_refl eq_refl).
Defined.

Lemma crypt_ignores_after_rounds_salt_witness :
  contains (lit "10000") dollar = false
  /\ contains (lit "abcdefgh") dollar = false
  /\ toy_crypt (Text (lit "hunter2"))
               (lit "$6$rounds=" ++ lit "10000" ++ dollar :: lit "abcdefgh"
                    ++ dollar :: lit "digest")
     = toy_crypt (Text (lit "hunter2"))
                 (lit "$6$rounds=" ++ lit "10000" ++ dollar :: lit "abcdefgh").
Proof.
  split; [reflexivity|]. split; [reflexivity|].
  exact (crypt_ignores_after_rounds_salt
           unit toy_sha512_crypt no_unicode_digits default_max_str_digits
           (Text (lit "hunter2")) (lit "10000") (lit "abcdefgh")
           (lit "digest") eq_refl eq_refl).
Defined.

Lemma crypt_ignores_after_second_equals_witness :
  contains (lit "10000") dollar = false
  /\ contains (lit "10000") equals_sign = false
  /\ contains (lit "x=y") dollar = false
  /\ toy_crypt (Text (lit "hunter2"))
               (lit "$6$rounds=" ++ lit "10000" ++ equals_sign :: lit "x=y"
                    ++ dollar :: lit "abcdefgh")
     = toy_crypt (Text (lit "hunter2"))
                 (lit "$6$rounds=" ++ lit "10000" ++ dollar :: lit "abcdefgh").
Proof.
  split; [reflexivity|]. split; [reflexivity|]. split; [reflexivity|].
  exact (crypt_ignores_after_second_equals
           unit toy_sha512_crypt no_unicode_digits default_max_str_digits
           (Text (lit "hunter2")) (lit "10000") (lit "x=y") (lit "abcdefgh")
           eq_refl eq_refl eq_refl).
Defined.

Lemma crypt_default_rounds_same_as_omitted_witness :
  contains (lit "5000") dollar = false
  /\ contains (lit "5000") equals_sign = false
  /\ rounds_or_default unit no_unicode_digits default_max_str_digits
                       (lit "5000") = 5000%Z
  /\ contains (lit "abcdefgh") dollar = false
  /\ startswith (lit "abcdefgh") (lit "rounds=") = false
  /\ toy_crypt (Text (lit "hunter2"))
               (lit "$6$rounds=" ++ lit "5000" ++ dollar :: lit "abcdefgh")
     = toy_crypt (Text (lit "hunter2")) (lit "$6$" ++ lit "abcdefgh").
Proof.
  split; [reflexivity|]. split; [reflexivity|]. split; [reflexivity|].
  split; [reflexivity|]. split; [reflexivity|].
  exact (crypt_default_rounds_same_as_omitted
           unit toy_sha512_crypt no_unicode_digits default_max_str_digits
           (Text (lit "hunter2")) (lit "5000") (lit "abcdefgh")
           eq_refl eq_refl eq_refl eq_refl eq_refl).
Defined.

Lemma crypt_short_descriptor_witness :
  decode_word unit (Text (lit "hunter2")) = inr (lit "hunter2")
  /\ List.length (lit "$6") < 3
  /\ toy_crypt (Text (lit "hunter2")) (lit "$6")
     = inl (ValueError
              (lit "Only SHA-512 crypt ($6$) is supported, got: " ++ lit "$6")).
Proof.
  split; [reflexivity|]. split; [apply le_n|].
  exact (crypt_short_descriptor
           unit toy_sha512_crypt no_unicode_digits default_max_str_digits
           (Text (lit "hunter2")) (lit "hunter2") (lit "$6")
           eq_refl (le_n 3)).
Defined.

Lemma crypt_missing_salt_is_empty_salt_witness :
  contains (lit "10000") dollar = false
  /\ toy_crypt (Text (lit "hunter2")) (lit "$6$rounds=" ++ lit "10000")
     = toy_crypt (Text (lit "hunter2"))
                 (lit "$6$rounds=" ++ lit "10000" ++ [dollar]).
Proof.
  split; [reflexivity|].
  exact (crypt_missing_salt_is_empty_salt
           unit toy_sha512_crypt no_unicode_digits default_max_str_digits
           (Text (lit "hunter2")) (lit "10000") eq_refl).
Defined.

Lemma import_before_3_13_witness :
  (3 < 3 \/ (3 = 3 /\ 12 < 13))%N
  /\ import_crypt_compat unit toy_sha512_crypt no_unicode_digits
                         default_max_str_digits [3; 12; 4]%N false
                         (ImportError unit (lit "No module named 'crypt'"))
     = ImportError unit (lit "No module named 'crypt'").
Proof.
  split; [right; split; reflexivity|].
  exact (import_before_3_13
           unit toy_sha512_crypt no_unicode_digits default_max_str_digits
           3%N 12%N [4%N] false
           (ImportError unit (lit "No module named 'crypt'"))
           (or_intror (conj eq_refl eq_refl))).
Defined.

Lemma import_from_3_13_witness :
  (3 < 3 \/ (3 = 3 /\ 13 <= 14))%N
  /\ import_crypt_compat unit toy_sha512_crypt no_unicode_digits
                         default_max_str_digits [3; 14; 0]%N true
                         (ImportError unit (lit "No module named 'crypt'"))
     = Exports unit toy_crypt.
Proof.
  assert (H : (3 < 3 \/ (3 = 3 /\ 13 <= 14))%N).
  { right. split; [reflexivity|discriminate]. }
  split; [exact H|].
  exact (import_from_3_13
           unit toy_sha512_crypt no_unicode_digits default_max_str_digits
           3%N 14%N [0%N] true
           (ImportError unit (lit "No module named 'crypt'")) H).
Defined.

Lemma crypt_scheme6_hash_is_pure_witness :
  decode_word unit (Bytes [x70; x77]) = inr (lit "pw")
  /\ startswith (lit "$6$rounds=10000$abcdefgh$digest") (lit "$6$") = true
  /\ exists h,
      crypt unit (spec_sha512_crypt (fun _ _ word => word)) no_unicode_digits
            default_max_str_digits
            (Bytes [x70; x77]) (lit "$6$rounds=10000$abcdefgh$digest")
      = inr h
      /\ startswith h (lit "$6$") = true
      /\ h = lit "$6$rounds=10000$abcdefgh$pw".
Proof.
  split; [reflexivity|]. split; [reflexivity|].
  destruct (crypt_scheme6_hash_is_pure
              unit (fun _ _ word => word) no_unicode_digits
              default_max_str_digits
              (Bytes [x70; x77]) (lit "pw")
              (lit "$6$rounds=10000$abcdefgh$digest") eq_refl eq_refl)
    as (h & Hcrypt & Hprefix & Hh & _).
  exists h. split; [exact Hcrypt|]. split; [exact Hprefix|].
  rewrite Hh. reflexivity.
Defined.
